(** * rfd-site: theme toggling and the root shell loader

    A shallow embedding of

    - [app/routes/user.toggle-theme.tsx] (the [action] that flips the
      theme cookie), and
    - the application root (the [loader], the [themeScript] template and
      the [Layout] shell),

    together with the properties their specification states about them. *)

From Stdlib Require Import String Ascii List Bool ZArith.
Import ListNotations.
Open Scope string_scope.

(* ================================================================== *)
(** ** JavaScript values as the two files observe them *)
(* ================================================================== *)

Module Js.

(** The run-time values the code can meet.  A cookie decodes to
    arbitrary JSON and a form field to a string or a file, whatever the
    TypeScript annotations say, so the value type is wider than
    ['light' | 'dark' | null].  [VOther] stands for every remaining
    value (a number, an object, a file); it carries the text that
    [String(v)] gives, which is all a template literal sees of it. *)
Inductive value : Type :=
| VUndefined
| VNull
| VBool (b : bool)
| VString (s : string)
| VOther (text : string).

(** [v === null || v === undefined]. *)
Definition is_nullish (v : value) : bool :=
  match v with
  | VUndefined | VNull => true
  | _ => false
  end.

(** The nullish coalescing operator [a ?? b]. *)
Definition coalesce (a b : value) : value :=
  if is_nullish a then b else a.

(** [v === 'lit'] for a string literal [lit]. *)
Definition eq_string (v : value) (lit : string) : bool :=
  match v with
  | VString s => String.eqb s lit
  | _ => false
  end.

(** [v === null]: strict, so [undefined] is not [null]. *)
Definition eq_null (v : value) : bool :=
  match v with
  | VNull => true
  | _ => false
  end.

(** [String(v)], the conversion a template literal applies. *)
Definition to_string (v : value) : string :=
  match v with
  | VUndefined => "undefined"
  | VNull => "null"
  | VBool true => "true"
  | VBool false => "false"
  | VString s => s
  | VOther text => text
  end.

(** A parameter default [x = d]: only [undefined] is replaced. *)
Definition default_param (x d : value) : value :=
  match x with
  | VUndefined => d
  | _ => x
  end.

End Js.

Import Js.

Declare Scope js_scope.
Delimit Scope js_scope with js.
Notation "a ?? b" := (coalesce a b) (at level 40, left associativity) : js_scope.
Notation "a === s" := (eq_string a s) (at level 70, no associativity) : js_scope.
Open Scope js_scope.

(* ================================================================== *)
(** ** Requests, cookies and responses *)
(* ================================================================== *)

(** An entry of a submitted form: a string or a file. *)
Inductive FormDataEntryValue : Type :=
| FString (s : string)
| FFile (name : string).

Definition entry_value (e : FormDataEntryValue) : value :=
  match e with
  | FString s => VString s
  | FFile name => VOther "[object File]"
  end.

Definition FormData : Type := list (string * FormDataEntryValue).

(** [formData.get(name)]: the first entry of that name, or [null]. *)
Fixpoint FormData_get (fd : FormData) (name : string) : value :=
  match fd with
  | [] => VNull
  | (k, e) :: rest =>
      if String.eqb k name then entry_value e else FormData_get rest name
  end.

(** What the two handlers read of a request: its [Cookie] header
    ([headers.get('Cookie')] is a string or [null]) and the form data its
    body holds ([await request.formData()], for a request submitted as a
    form). *)
Record Request : Type := mkRequest {
  header_Cookie : option string;
  request_formData : FormData
}.

(** The [Cookie] objects of [~/services/cookies.server], which is outside
    the two files: [parse] decodes a [Cookie] header to a value and
    [serialize] encodes a value as the text of a [Set-Cookie] header. *)
Record Cookie : Type := mkCookie {
  parse : option string -> value;
  serialize : value -> string
}.

Definition Headers : Type := list (string * string).

Definition Headers_append (h : Headers) (name v : string) : Headers :=
  (h ++ [(name, v)])%list.

Fixpoint Headers_get (h : Headers) (name : string) : option string :=
  match h with
  | [] => None
  | (k, v) :: rest => if String.eqb k name then Some v else Headers_get rest name
  end.

(** [data(body, { headers })]. *)
Record Response : Type := data {
  body : value;
  headers : Headers
}.

(* ================================================================== *)
(** ** [user.toggle-theme.tsx] *)
(* ================================================================== *)

(** [export type Theme = 'light' | 'dark' | null]. *)
Inductive Theme : Type := light | dark | null.

Definition theme_value (t : Theme) : value :=
  match t with
  | light => VString "light"
  | dark => VString "dark"
  | null => VNull
  end.

Module ToggleTheme.

Section Action.

Variable themeCookie : Cookie.

(** The [action], statement by statement. *)
Definition action (request : Request) : Response :=
  let currentTheme := parse themeCookie (header_Cookie request) ?? VNull in
  let formData := request_formData request in
  let systemPreference := FormData_get formData "systemPreference" in
  let effectiveTheme := currentTheme ?? systemPreference ?? VString "dark" in
  let newTheme :=
    if effectiveTheme === "light" then VString "dark" else VString "light" in
  let headers := [] in
  let headers := Headers_append headers "Cache-Control" "no-cache" in
  let headers := Headers_append headers "Set-Cookie" (serialize themeCookie newTheme) in
  data VNull headers.

(** The constants of the [action], each as a function of the request,
    to state what it computes on the way. *)
Definition currentTheme (request : Request) : value :=
  parse themeCookie (header_Cookie request) ?? VNull.

Definition systemPreference (request : Request) : value :=
  FormData_get (request_formData request) "systemPreference".

Definition effectiveTheme (request : Request) : value :=
  currentTheme request ?? systemPreference request ?? VString "dark".

Definition newTheme (request : Request) : value :=
  if effectiveTheme request === "light" then VString "dark" else VString "light".

End Action.

(** *** The specification's reading of the toggler *)

(** [effective = v ?? p ?? dark], on the three-valued theme. *)
Definition effective_spec (v p : Theme) : Theme :=
  match v with
  | null => match p with
            | null => dark
            | _ => p
            end
  | _ => v
  end.

(** [new = effective == light ? dark : light]. *)
Definition toggle_spec (t : Theme) : Theme :=
  match t with
  | light => dark
  | _ => light
  end.

(** A parsed cookie or form field that reads as the theme [t]; an absent
    one is [null] or [undefined]. *)
Definition reads_as (x : value) (t : Theme) : bool :=
  match t, x with
  | light, VString s => String.eqb s "light"
  | dark, VString s => String.eqb s "dark"
  | null, (VNull | VUndefined) => true
  | _, _ => false
  end.

(** A cookie value that is present but is neither of the two names. *)
Definition malformed (x : value) : bool :=
  negb (is_nullish x) && negb (x === "light") && negb (x === "dark").

(** The browser keeps the text of a [Set-Cookie] header and sends it
    back as the next [Cookie] header ([store]); for the codec at hand the
    two themes the action writes parse back to themselves. *)
Definition cookie_round_trip (c : Cookie) (store : string -> option string) : Prop :=
  parse c (store (serialize c (VString "light"))) = VString "light"
  /\ parse c (store (serialize c (VString "dark"))) = VString "dark".

(** The request that follows a response, with the same form field. *)
Definition next_request (store : string -> option string)
    (request : Request) (response : Response) : Request :=
  match Headers_get (headers response) "Set-Cookie" with
  | Some sc => mkRequest (store sc) (request_formData request)
  | None => request
  end.

(** A concrete cookie codec, for examples: the header is the bare text
    of the value, and the text [null] stands for [null]. *)
Definition plainCookie : Cookie :=
  mkCookie (fun h => match h with
                     | Some s => if String.eqb s "null" then VNull else VString s
                     | None => VNull
                     end)
           to_string.

(** *** The action as the framework awaits it *)

(** A request as it arrives.  Its body decodes as form data or it does
    not: [await request.formData()] resolves with the form ([Some]) or
    rejects with a [TypeError] ([None]). *)
Record IncomingRequest : Type := mkIncoming {
  incoming_Cookie : option string;
  incoming_formData : option FormData
}.

(** What the promise of the action can reject with. *)
Inductive rejection : Type :=
| TypeError_formData.

Inductive promise : Type :=
| Resolves (response : Response)
| Rejects (e : rejection).

(** The [action] on a request as it arrives, statement by statement:
    the cookie is parsed, then the form data is awaited, and only then
    do the remaining statements run. *)
Definition action_promise (c : Cookie) (request : IncomingRequest) : promise :=
  let currentTheme := parse c (incoming_Cookie request) ?? VNull in
  match incoming_formData request with
  | None => Rejects TypeError_formData
  | Some formData =>
      let systemPreference := FormData_get formData "systemPreference" in
      let effectiveTheme := currentTheme ?? systemPreference ?? VString "dark" in
      let newTheme :=
        if effectiveTheme === "light" then VString "dark" else VString "light" in
      let headers := [] in
      let headers := Headers_append headers "Cache-Control" "no-cache" in
      let headers := Headers_append headers "Set-Cookie" (serialize c newTheme) in
      Resolves (data VNull headers)
  end.

(** *** A browser session of toggles *)

(** One submission of the toggle form: the browser sends its stored
    [Cookie] header with the form, and stores what the response sets. *)
Definition toggle_step (c : Cookie) (store : string -> option string)
    (cookie : option string) (fd : FormData) : option string :=
  let request := mkRequest cookie fd in
  header_Cookie (next_request store request (action c request)).

(** The submissions of a session, in order, each with its own form. *)
Definition toggle_session (c : Cookie) (store : string -> option string)
    (cookie : option string) (forms : list FormData) : option string :=
  fold_left (toggle_step c store) forms cookie.

End ToggleTheme.


(* ================================================================== *)
(** ** The application root: effects of the loader *)
(* ================================================================== *)

Module Root.

(** *** Calls that may throw, and the trace of calls made *)

(** The loader awaits collaborators of [./services/*.server], which are
    outside the two files; each call either returns or throws.  The
    loader's own [try]/[catch] is the only handler.  A trace records the
    calls in the order they are made, so that "the loader calls [logout]"
    is a statement about the trace. *)
Inductive outcome (E A : Type) : Type :=
| Return (a : A)
| Throw (e : E).

Arguments Return {E A} a.
Arguments Throw {E A} e.

Inductive call : Type :=
| CallAuthenticate (request : Request)
| CallFetchRfds
| CallGetAuthors
| CallGetLabels
| CallIsLocalMode
| CallProvideNewRfdNumber
| CallLogout (request : Request) (redirectTo : string).

Definition trace : Type := list call.

Definition M (E A : Type) : Type := trace -> outcome E A * trace.

Definition ret {E A : Type} (a : A) : M E A :=
  fun t => (Return a, t).

Definition bind {E A B : Type} (m : M E A) (k : A -> M E B) : M E B :=
  fun t =>
    match m t with
    | (Return a, t') => k a t'
    | (Throw e, t') => (Throw e, t')
    end.

(** A call [f(...)], awaited or not: it is recorded, then it returns or
    throws. *)
Definition invoke {E A : Type} (c : call) (o : outcome E A) : M E A :=
  fun t => (o, (t ++ [c])%list).

(** [try { body } catch { handler }]: the handler runs on any throw of
    the body, in the trace the body left. *)
Definition try_catch {E A : Type} (body : M E A) (handler : E -> M E A) : M E A :=
  fun t =>
    match body t with
    | (Return a, t') => (Return a, t')
    | (Throw e, t') => handler e t'
    end.

Definition run {E A : Type} (m : M E A) : outcome E A * trace := m [].

Declare Scope loader_scope.
Delimit Scope loader_scope with loader.
Notation "x <- c ;; k" := (bind c (fun x => k))
  (at level 61, c at next level, right associativity) : loader_scope.
Notation "c ;;; k" := (bind c (fun _ => k))
  (at level 61, right associativity) : loader_scope.
Open Scope loader_scope.

(** Whether a trace holds a call of [logout]. *)
Definition is_logout (c : call) : bool :=
  match c with
  | CallLogout _ _ => true
  | _ => false
  end.

Definition calls_logout (t : trace) : bool := existsb is_logout t.

(** *** The loader *)

Section Loader.

Variables User Rfd Author Label E : Type.

(** The collaborators the loader imports. [fetchRfds] may resolve to a
    falsy value ([None]), which [|| []] replaces. *)
Record Services : Type := mkServices {
  authenticate : Request -> outcome E User;
  logout : Request -> string -> outcome E unit;
  fetchRfds : User -> outcome E (option (list Rfd));
  getAuthors : list Rfd -> outcome E (list Author);
  getLabels : list Rfd -> outcome E (list Label);
  provideNewRfdNumber : list Rfd -> outcome E (option Z);
  isLocalMode : unit -> outcome E bool
}.

(** The object the loader returns; [newRfdNumber] is a number or
    [undefined]. *)
Record LoaderData : Type := mkLoaderData {
  theme : value;
  inlineComments : value;
  user : User;
  rfds : list Rfd;
  authors : list Author;
  labels : list Label;
  localMode : bool;
  newRfdNumber : option Z
}.

Variables themeCookie inlineCommentsCookie : Cookie.
Variable services : Services.

(** [x || []] on a fetched array: a falsy result gives the empty array;
    an array, empty or not, is truthy and is kept. *)
Definition or_empty (x : option (list Rfd)) : list Rfd :=
  match x with
  | Some l => l
  | None => []
  end.

(** The truth value of an array in a condition ([rfds ? ... : []]). *)
Definition truthy_array (l : list Rfd) : bool := true.

(** [theme = (await themeCookie.parse(...)) ?? null]. *)
Definition loader_theme (request : Request) : value :=
  parse themeCookie (header_Cookie request) ?? VNull.

(** [inlineComments = (await inlineCommentsCookie.parse(...)) ?? true]. *)
Definition loader_inlineComments (request : Request) : value :=
  parse inlineCommentsCookie (header_Cookie request) ?? VBool true.

(** The body of the [try] block: the fetch, the facets and the returned
    object, its fields evaluated in the order they are written. *)
Definition loader_try (theme inlineComments : value) (user : User) : M E LoaderData :=
  fetched <- invoke CallFetchRfds (fetchRfds services user) ;;
  let rfds := or_empty fetched in
  authors <- (if truthy_array rfds
              then invoke CallGetAuthors (getAuthors services rfds)
              else ret []) ;;
  labels <- (if truthy_array rfds
             then invoke CallGetLabels (getLabels services rfds)
             else ret []) ;;
  localMode <- invoke CallIsLocalMode (isLocalMode services tt) ;;
  newRfdNumber <- invoke CallProvideNewRfdNumber (provideNewRfdNumber services rfds) ;;
  ret (mkLoaderData theme inlineComments user rfds authors labels localMode newRfdNumber).

(** The [catch] block followed by the final [return]: [logout] is
    awaited, and if it returns the empty object is built. *)
Definition loader_catch (request : Request) (theme inlineComments : value) (user : User)
  : M E LoaderData :=
  invoke (CallLogout request "/") (logout services request "/") ;;;
  localMode <- invoke CallIsLocalMode (isLocalMode services tt) ;;
  ret (mkLoaderData theme inlineComments user [] [] [] localMode None).

(** [loader]: [authenticate] is awaited before the [try] block, so a
    throw of it is not caught. *)
Definition loader (request : Request) : M E LoaderData :=
  let theme := loader_theme request in
  let inlineComments := loader_inlineComments request in
  user <- invoke (CallAuthenticate request) (authenticate services request) ;;
  try_catch (loader_try theme inlineComments user)
            (fun _ => loader_catch request theme inlineComments user).

End Loader.

Arguments mkServices {User Rfd Author Label E}.
Arguments authenticate {User Rfd Author Label E}.
Arguments logout {User Rfd Author Label E}.
Arguments fetchRfds {User Rfd Author Label E}.
Arguments getAuthors {User Rfd Author Label E}.
Arguments getLabels {User Rfd Author Label E}.
Arguments provideNewRfdNumber {User Rfd Author Label E}.
Arguments isLocalMode {User Rfd Author Label E}.
Arguments mkLoaderData {User Rfd Author Label}.
Arguments theme {User Rfd Author Label}.
Arguments inlineComments {User Rfd Author Label}.
Arguments user {User Rfd Author Label}.
Arguments rfds {User Rfd Author Label}.
Arguments authors {User Rfd Author Label}.
Arguments labels {User Rfd Author Label}.
Arguments localMode {User Rfd Author Label}.
Arguments newRfdNumber {User Rfd Author Label}.
Arguments loader {User Rfd Author Label E}.
Arguments loader_try {User Rfd Author Label E}.
Arguments loader_catch {User Rfd Author Label E}.

Definition is_empty {A : Type} (l : list A) : bool :=
  match l with
  | [] => true
  | _ :: _ => false
  end.

(** The outcome "[logout] was called and an object with no documents was
    returned": the empty-document response. *)
Definition responds_empty {User Rfd Author Label E : Type}
    (r : outcome E (LoaderData User Rfd Author Label) * trace) : bool :=
  match r with
  | (Return d, t) =>
      calls_logout t && is_empty (rfds d) && is_empty (authors d)
      && is_empty (labels d)
      && match newRfdNumber d with
         | None => true
         | Some _ => false
         end
  | (Throw _, _) => false
  end.

(** *** The pre-hydration script *)

Definition dquote : string := String "034"%char EmptyString.

(** The interpolation [${theme === null ? 'null' : `'${theme}'`}]. *)
Definition savedTheme_literal (theme : value) : string :=
  if eq_null theme then "null" else "'" ++ to_string theme ++ "'".

(** [themeScript]: the template literal, with its one interpolation. *)
Definition themeScript (theme : value) : string :=
  "
(function() {
  var savedTheme = " ++ savedTheme_literal theme ++ ";
  var resolvedTheme;
  if (savedTheme === null) {
    // No saved preference, follow system
    resolvedTheme = window.matchMedia('(prefers-color-scheme: light)').matches ? 'light-mode' : 'dark-mode';
  } else {
    resolvedTheme = savedTheme === 'light' ? 'light-mode' : 'dark-mode';
  }
  document.documentElement.className = resolvedTheme;

  // Update color-scheme meta tag
  var meta = document.querySelector('meta[name=" ++ dquote ++ "color-scheme" ++ dquote ++ "]');
  if (meta) meta.content = resolvedTheme === 'light-mode' ? 'light' : 'dark';
})();
".

(** The value the first line of the script binds to [savedTheme], when
    the interpolated text is the literal [null] or a single-quoted
    string free of quotes, backslashes and line ends.  Any other text is
    left unread ([None]): it may end the literal early, or hold an
    escape that JavaScript would still accept. *)
Definition plain_char (c : ascii) : bool :=
  negb (Ascii.eqb c "'"%char || Ascii.eqb c "\"%char
        || Ascii.eqb c "010"%char || Ascii.eqb c "013"%char).

Definition eval_savedTheme (literal : string) : option value :=
  if String.eqb literal "null" then Some VNull
  else
    match literal with
    | String "'"%char rest =>
        let n := String.length rest in
        let inner := substring 0 (n - 1) rest in
        if String.eqb (substring (n - 1) 1 rest) "'"
           && forallb plain_char (list_ascii_of_string inner)
        then Some (VString inner)
        else None
    | _ => None
    end.

(** What the script reads of the browser. *)
Record Browser : Type := mkBrowser {
  matchMedia : string -> bool;
  has_color_scheme_meta : bool
}.

(** What the script does to the page, and what it asks of it. *)
Inductive dom_op : Type :=
| MatchMedia (query : string)
| SetRootClassName (className : string)
| QuerySelector (selector : string)
| SetMetaContent (content : string).

(** The body of the script, statement by statement, for a given value
    of [savedTheme]; the result lists the operations in order. *)
Definition themeScript_body (savedTheme : value) (w : Browser) : list dom_op :=
  let '(resolvedTheme, asked) :=
    if eq_null savedTheme
    then
      let query := "(prefers-color-scheme: light)" in
      ((if matchMedia w query then "light-mode" else "dark-mode"), [MatchMedia query])
    else
      ((if savedTheme === "light" then "light-mode" else "dark-mode"), [])
  in
  let selector := "meta[name=" ++ dquote ++ "color-scheme" ++ dquote ++ "]" in
  (asked
   ++ [SetRootClassName resolvedTheme; QuerySelector selector]
   ++ (if has_color_scheme_meta w
       then [SetMetaContent (if String.eqb resolvedTheme "light-mode" then "light" else "dark")]
       else []))%list.

(** Running the script emitted for [theme]. *)
Definition themeScript_run (theme : value) (w : Browser) : option (list dom_op) :=
  match eval_savedTheme (savedTheme_literal theme) with
  | Some savedTheme => Some (themeScript_body savedTheme w)
  | None => None
  end.

Definition is_MatchMedia (op : dom_op) : bool :=
  match op with
  | MatchMedia _ => true
  | _ => false
  end.

(** Whether a run consulted a media query. *)
Definition consults_media (ops : list dom_op) : bool := existsb is_MatchMedia ops.

(** The class the run leaves on the root element. *)
Fixpoint root_class_set (ops : list dom_op) : option string :=
  match ops with
  | [] => None
  | SetRootClassName c :: rest =>
      match root_class_set rest with
      | Some c' => Some c'
      | None => Some c
      end
  | _ :: rest => root_class_set rest
  end.

(** *** The shell *)

(** Rendered markup: elements with string props, and the components of
    the framework, which are left opaque. *)
#[warnings="-register-all"]
Inductive node : Type :=
| Element (tag : string) (props : list (string * string)) (children : list node)
| Component (name : string).

Definition node_tag (n : node) : string :=
  match n with
  | Element tag _ _ => tag
  | Component name => name
  end.

Definition node_props (n : node) : list (string * string) :=
  match n with
  | Element _ props _ => props
  | Component _ => []
  end.

Definition node_children (n : node) : list node :=
  match n with
  | Element _ _ children => children
  | Component _ => []
  end.

Fixpoint lookup_prop (props : list (string * string)) (name : string) : option string :=
  match props with
  | [] => None
  | (k, v) :: rest => if String.eqb k name then Some v else lookup_prop rest name
  end.

Definition prop (n : node) (name : string) : option string :=
  lookup_prop (node_props n) name.

Section Shell.

(** [process.env.NODE_ENV === 'production']. *)
Variable production : bool.

(** [Layout]: [theme] defaults to [null]. *)
Definition Layout (children : list node) (theme : value) : node :=
  let theme := default_param theme VNull in
  let initialClass :=
    if theme === "light" then "light-mode"
    else if theme === "dark" then "dark-mode"
    else "" in
  let colorScheme :=
    if theme === "light" then "light"
    else if theme === "dark" then "dark"
    else "dark light" in
  Element "html"
    [("lang", "en"); ("className", initialClass); ("suppressHydrationWarning", "true")]
    [ Element "head" []
        ([ Element "meta" [("charSet", "utf-8")] [];
           Element "meta" [("name", "viewport");
                           ("content", "width=device-width,initial-scale=1")] [];
           Component "Meta";
           Component "Links";
           Element "link" [("rel", "icon"); ("href", "/favicon.svg")] [];
           Element "link" [("rel", "icon"); ("type", "image/png");
                           ("href", "/favicon.png")] [];
           Element "meta" [("name", "viewport");
                           ("content", "width=device-width, initial-scale=1")] [] ]
         ++ (if production
             then [ Element "script" [("defer", "true");
                                      ("data-domain", "rfd.shared.oxide.computer");
                                      ("src", "/js/viewscript.js")] [] ]
             else [])
         ++ [ Element "meta" [("name", "color-scheme"); ("content", colorScheme)] [];
              Element "script" [("dangerouslySetInnerHTML", themeScript theme)] [] ])%list;
      Element "body" [("className", "mb-32")]
        (children ++ [Component "ScrollRestoration"; Component "Scripts"])%list ].

(** [App]: the shell around the page, for the loader's data.  A text
    child is the [children] prop of its element, as React has it. *)
Definition App {User Rfd Author Label : Type}
    (d : LoaderData User Rfd Author Label) : node :=
  Layout
    [ Component "LoadingBar";
      Element "QueryClientProvider" []
        ([Component "Outlet"]
         ++ (if localMode d
             then [ Element "div"
                      [("className",
                        "overlay-shadow text-sans-sm text-notice bg-notice-secondary fixed bottom-6 left-6 z-10 rounded p-2");
                       ("children", "Local authoring mode")]
                      [] ]
             else []))%list ]
    (theme d).

End Shell.

(** The [className] of the root element. *)
Definition root_className (shell : node) : option string := prop shell "className".

(** The first child with the given tag. *)
Definition child_with_tag (tag : string) (n : node) : option node :=
  find (fun c => String.eqb (node_tag c) tag) (node_children n).

(** The [content] of the [<meta name=...>] of the head. *)
Definition meta_content (name : string) (shell : node) : option string :=
  match child_with_tag "head" shell with
  | Some head =>
      match find (fun c => String.eqb (node_tag c) "meta"
                           && match prop c "name" with
                              | Some n => String.eqb n name
                              | None => false
                              end)
                 (node_children head) with
      | Some m => prop m "content"
      | None => None
      end
  | None => None
  end.

(** The text of the inline script of the head. *)
Definition inline_script (shell : node) : option string :=
  match child_with_tag "head" shell with
  | Some head =>
      match find (fun c => match prop c "dangerouslySetInnerHTML" with
                           | Some _ => true
                           | None => false
                           end)
                 (node_children head) with
      | Some s => prop s "dangerouslySetInnerHTML"
      | None => None
      end
  | None => None
  end.

(** *** The specification's reading of the shell *)

(** The specification's table from theme to root class. *)
Definition class_of_theme (t : Theme) : string :=
  match t with
  | light => "light-mode"
  | dark => "dark-mode"
  | null => ""
  end.

(** The specification's table from theme to [color-scheme]. *)
Definition color_scheme_of_theme (t : Theme) : string :=
  match t with
  | light => "light"
  | dark => "dark"
  | null => "dark light"
  end.

(** The class the script resolves: from the saved theme when there is
    one, from the media query otherwise. *)
Definition resolved_class (t : Theme) (w : Browser) : string :=
  match t with
  | light => "light-mode"
  | dark => "dark-mode"
  | null =>
      if matchMedia w "(prefers-color-scheme: light)" then "light-mode" else "dark-mode"
  end.

(** *** The error boundary *)

(** What [useRouteError()] hands the boundary: a route error response
    (it has a numeric [status], a [statusText] and [data]), or whatever
    else was thrown. *)
Inductive route_error : Type :=
| ErrorResponse (status : Z) (statusText : string) (data : value)
| Thrown (v : value).

Definition isRouteErrorResponse (error : route_error) : bool :=
  match error with
  | ErrorResponse _ _ _ => true
  | Thrown _ => false
  end.

(** [error.status === n], once [error] is known to be a response. *)
Definition status_is (error : route_error) (n : Z) : bool :=
  match error with
  | ErrorResponse status _ _ => Z.eqb status n
  | Thrown _ => false
  end.

(** [ErrorBoundary]: the message, inside a [Layout] given no [theme]. *)
Definition ErrorBoundary (production : bool) (error : route_error) : node :=
  let message := "Something went wrong" in
  let message :=
    if isRouteErrorResponse error
    then (if status_is error 404 then "404 Not Found" else message)
    else message in
  Layout production
    [ Element "div" [("className", "flex h-full w-full items-center justify-center")]
        [ Element "h1" [("className", "text-2xl"); ("children", message)] [] ] ]
    VUndefined.

(** The text of the heading the boundary renders in the body. *)
Definition rendered_message (shell : node) : option string :=
  match child_with_tag "body" shell with
  | Some b =>
      match child_with_tag "div" b with
      | Some dv =>
          match child_with_tag "h1" dv with
          | Some h => prop h "children"
          | None => None
          end
      | None => None
      end
  | None => None
  end.

(** *** The script in the document of the shell *)

(** The content the run leaves on the [color-scheme] meta tag, if it
    sets one. *)
Fixpoint meta_content_set (ops : list dom_op) : option string :=
  match ops with
  | [] => None
  | SetMetaContent c :: rest =>
      match meta_content_set rest with
      | Some c' => Some c'
      | None => Some c
      end
  | _ :: rest => meta_content_set rest
  end.

Definition is_color_scheme_meta (n : node) : bool :=
  String.eqb (node_tag n) "meta"
  && match prop n "name" with
     | Some name => String.eqb name "color-scheme"
     | None => false
     end.

Definition is_inline_script (n : node) : bool :=
  match prop n "dangerouslySetInnerHTML" with
  | Some _ => true
  | None => false
  end.

(** An inline script runs when the parser reaches it: the meta tag
    exists for it only if it comes earlier in the head. *)
Fixpoint meta_precedes_script (head_children : list node) : bool :=
  match head_children with
  | [] => false
  | c :: rest =>
      if is_inline_script c then false
      else if is_color_scheme_meta c then true
      else meta_precedes_script rest
  end.

(** The browser as the inline script of [shell] finds it, for a given
    answer of the media queries. *)
Definition document_browser (answer : string -> bool) (shell : node) : Browser :=
  mkBrowser answer
    match child_with_tag "head" shell with
    | Some head => meta_precedes_script (node_children head)
    | None => false
    end.

(** Running the inline script of a shell in the shell's own document. *)
Definition run_inline_script (answer : string -> bool) (theme : value) (shell : node)
  : option (list dom_op) :=
  themeScript_run theme (document_browser answer shell).

(** A character that the HTML parser hands on unchanged inside a
    [script] element: any but [<], which can end the element or open an
    escape, and NUL, which the parser replaces. *)
Definition script_data_char (c : ascii) : bool :=
  negb (Ascii.eqb c "<"%char || Ascii.eqb c "000"%char).

(** The inline script as the parser of the document delivers it to the
    engine: the text set as inner HTML when every character of it is
    handed on; otherwise the element may end early and the document is
    left unread ([None]). *)
Definition delivered_script (shell : node) : option string :=
  match inline_script shell with
  | Some text =>
      if forallb script_data_char (list_ascii_of_string text) then Some text else None
  | None => None
  end.

(** Running what the document delivers, when that is the script emitted
    for [theme]. *)
Definition run_delivered_script (answer : string -> bool) (theme : value) (shell : node)
  : option (list dom_op) :=
  match delivered_script shell with
  | Some text =>
      if String.eqb text (themeScript theme)
      then themeScript_run theme (document_browser answer shell)
      else None
  | None => None
  end.

End Root.

(* ================================================================== *)
(** ** Concrete collaborators, for examples *)
(* ================================================================== *)

Module Examples.

Import Root.

Definition User : Type := string.
Definition Rfd : Type := nat.
Definition Author : Type := string.
Definition Label : Type := string.
Definition E : Type := string.

Definition exServices : Services User Rfd Author Label E :=
  mkServices
    (fun _ => Return "alice")
    (fun _ _ => Return tt)
    (fun _ => Return (Some [1; 2]))
    (fun _ => Return ["bob"])
    (fun _ => Return ["storage"])
    (fun _ => Return (Some 3%Z))
    (fun _ => Return false).

(** The fetch throws and [logout] returns. *)
Definition exServices_fetch_fails : Services User Rfd Author Label E :=
  mkServices
    (authenticate exServices)
    (logout exServices)
    (fun _ => Throw "fetch failed")
    (getAuthors exServices)
    (getLabels exServices)
    (provideNewRfdNumber exServices)
    (isLocalMode exServices).

(** The fetch throws and [logout] throws its redirect. *)
Definition exServices_logout_redirects : Services User Rfd Author Label E :=
  mkServices
    (authenticate exServices)
    (fun _ redirectTo => Throw ("redirect " ++ redirectTo))
    (fun _ => Throw "unauthenticated")
    (getAuthors exServices)
    (getLabels exServices)
    (provideNewRfdNumber exServices)
    (isLocalMode exServices).

(** [authenticate] itself throws. *)
Definition exServices_auth_fails : Services User Rfd Author Label E :=
  mkServices
    (fun _ => Throw "authentication failed")
    (logout exServices)
    (fetchRfds exServices)
    (getAuthors exServices)
    (getLabels exServices)
    (provideNewRfdNumber exServices)
    (isLocalMode exServices).

Definition exRequest : Request :=
  mkRequest (Some "dark") [("systemPreference", FString "light")].

(** What the loader returns for [exRequest] when the fetch succeeds, and
    when it fails. *)
Definition exData_success : LoaderData User Rfd Author Label :=
  mkLoaderData (VString "dark") (VBool true) "alice"
    [1; 2] ["bob"] ["storage"] false (Some 3%Z).

Definition exData_fallback : LoaderData User Rfd Author Label :=
  mkLoaderData (VString "dark") (VBool true) "alice" [] [] [] false None.

(** A codec for the [inlineComments] flag: only an explicit [false] is
    stored; any other header has no such cookie. *)
Definition flagCookie : Cookie :=
  mkCookie (fun h => match h with
                     | Some s => if String.eqb s "inlineComments=false"
                                 then VBool false else VNull
                     | None => VNull
                     end)
           (fun v => "inlineComments=" ++ to_string v).

End Examples.

(* ================================================================== *)
(** ** Properties of the toggle action *)
(* ================================================================== *)

Section ToggleThemeFacts.

Import ToggleTheme.

Variable themeCookie : Cookie.

Lemma reads_as_value (x : value) (t : Theme) :
  reads_as x t = true -> x ?? VNull = theme_value t.
Proof.
  destruct t, x; simpl; try discriminate; try reflexivity;
    intros H; apply String.eqb_eq in H; subst; reflexivity.
Qed.

Lemma theme_value_coalesce (v p : Theme) :
  theme_value v ?? theme_value p ?? VString "dark" = theme_value (effective_spec v p).
Proof. destruct v, p; reflexivity. Qed.

(** The [action] in terms of its constants. *)
Lemma action_unfold (request : Request) :
  action themeCookie request
  = data VNull [("Cache-Control", "no-cache");
                ("Set-Cookie", serialize themeCookie (newTheme themeCookie request))].
Proof. reflexivity. Qed.

Lemma set_cookie_of_action (request : Request) :
  Headers_get (headers (action themeCookie request)) "Set-Cookie"
  = Some (serialize themeCookie (newTheme themeCookie request)).
Proof. reflexivity. Qed.

Lemma effectiveTheme_reads (request : Request) (v p : Theme) :
  reads_as (parse themeCookie (header_Cookie request)) v = true ->
  reads_as (FormData_get (request_formData request) "systemPreference") p = true ->
  effectiveTheme themeCookie request = theme_value (effective_spec v p).
Proof.
  intros Hv Hp. unfold effectiveTheme, currentTheme, systemPreference.
  apply reads_as_value in Hv. apply reads_as_value in Hp.
  rewrite Hv. rewrite <- theme_value_coalesce.
  rewrite <- Hp. destruct v; simpl; try reflexivity.
  destruct (FormData_get (request_formData request) "systemPreference"); reflexivity.
Qed.

Lemma newTheme_reads (request : Request) (v p : Theme) :
  reads_as (parse themeCookie (header_Cookie request)) v = true ->
  reads_as (FormData_get (request_formData request) "systemPreference") p = true ->
  newTheme themeCookie request = theme_value (toggle_spec (effective_spec v p)).
Proof.
  intros Hv Hp. unfold newTheme.
  rewrite (effectiveTheme_reads request v p Hv Hp).
  destruct v, p; reflexivity.
Qed.

(** C1. For a cookie that reads as [v] and a [systemPreference] field
    that reads as [p], each of light, dark or absent, the action's
    effective theme is [v ?? p ?? dark], and the theme it writes in the
    [Set-Cookie] header is dark when that is light and light otherwise. *)
Theorem action_toggles_effective_theme (request : Request) (v p : Theme) :
  reads_as (parse themeCookie (header_Cookie request)) v = true ->
  reads_as (FormData_get (request_formData request) "systemPreference") p = true ->
  effectiveTheme themeCookie request = theme_value (effective_spec v p)
  /\ newTheme themeCookie request = theme_value (toggle_spec (effective_spec v p))
  /\ Headers_get (headers (action themeCookie request)) "Set-Cookie"
     = Some (serialize themeCookie (theme_value (toggle_spec (effective_spec v p)))).
Proof.
  intros Hv Hp. split; [| split].
  - exact (effectiveTheme_reads request v p Hv Hp).
  - exact (newTheme_reads request v p Hv Hp).
  - rewrite set_cookie_of_action. now rewrite (newTheme_reads request v p Hv Hp).
Qed.

(** The effective theme is never absent, whatever the inputs. *)
Lemma effectiveTheme_present (request : Request) :
  is_nullish (effectiveTheme themeCookie request) = false.
Proof.
  unfold effectiveTheme, currentTheme, systemPreference.
  destruct (parse themeCookie (header_Cookie request));
    destruct (FormData_get (request_formData request) "systemPreference");
    reflexivity.
Qed.

Lemma newTheme_cases (request : Request) :
  newTheme themeCookie request = VString "light"
  \/ newTheme themeCookie request = VString "dark".
Proof.
  unfold newTheme.
  destruct (effectiveTheme themeCookie request === "light"); [right | left]; reflexivity.
Qed.

(** A request whose cookie is one of the two names: the cookie alone is
    the effective theme. *)
Lemma effectiveTheme_of_cookie (request : Request) (s : string) :
  parse themeCookie (header_Cookie request) = VString s ->
  effectiveTheme themeCookie request = VString s.
Proof.
  intros H. unfold effectiveTheme, currentTheme. now rewrite H.
Qed.

Section TwoToggles.

Variable store : string -> option string.
Hypothesis round_trip : cookie_round_trip themeCookie store.

Lemma next_request_cookie (request : Request) :
  parse themeCookie
    (header_Cookie (next_request store request (action themeCookie request)))
  = newTheme themeCookie request.
Proof.
  unfold next_request. rewrite set_cookie_of_action. simpl.
  destruct round_trip as [Hl Hd].
  destruct (newTheme_cases request) as [H | H]; rewrite H; assumption.
Qed.

Lemma next_request_effective (request : Request) :
  effectiveTheme themeCookie (next_request store request (action themeCookie request))
  = newTheme themeCookie request.
Proof.
  pose proof (next_request_cookie request) as H.
  destruct (newTheme_cases request) as [E | E]; rewrite E in *;
    now apply effectiveTheme_of_cookie.
Qed.

(** After a toggle the cookie is one of the two names: the next request
    does not follow the system. *)
Lemma next_request_not_absent (request : Request) :
  is_nullish
    (currentTheme themeCookie
       (next_request store request (action themeCookie request))) = false.
Proof.
  unfold currentTheme. rewrite next_request_cookie.
  destruct (newTheme_cases request) as [H | H]; now rewrite H.
Qed.

(** C2. Starting from a cookie that reads as [v] and a preference hint
    that reads as [p], held fixed, two toggles in a row, the second one
    reading the cookie the first one wrote, write back the original
    effective theme, and the request after them sees it as its effective
    theme. *)
Theorem toggle_twice_restores_effective_theme (request : Request) (v p : Theme) :
  reads_as (parse themeCookie (header_Cookie request)) v = true ->
  reads_as (FormData_get (request_formData request) "systemPreference") p = true ->
  let second := next_request store request (action themeCookie request) in
  let third := next_request store second (action themeCookie second) in
  effectiveTheme themeCookie second = theme_value (toggle_spec (effective_spec v p))
  /\ newTheme themeCookie second = theme_value (effective_spec v p)
  /\ effectiveTheme themeCookie third = effectiveTheme themeCookie request.
Proof.
  intros Hv Hp second third.
  pose proof (effectiveTheme_reads request v p Hv Hp) as He.
  pose proof (newTheme_reads request v p Hv Hp) as Hn.
  assert (H2 : effectiveTheme themeCookie second
               = theme_value (toggle_spec (effective_spec v p))).
  { unfold second. now rewrite next_request_effective. }
  assert (N2 : newTheme themeCookie second = theme_value (effective_spec v p)).
  { unfold newTheme. rewrite H2. destruct v, p; reflexivity. }
  split; [exact H2 | split; [exact N2 |]].
  unfold third. rewrite next_request_effective. now rewrite N2, He.
Qed.

End TwoToggles.

(** On a submitted form, a cookie value that is present but is neither
    [light] nor [dark] is the effective theme, and the action answers as
    it does for a [dark] cookie, writing [light]. *)
Lemma malformed_cookie_on_form (request request_dark : Request) :
  malformed (parse themeCookie (header_Cookie request)) = true ->
  parse themeCookie (header_Cookie request_dark) = VString "dark" ->
  effectiveTheme themeCookie request = parse themeCookie (header_Cookie request)
  /\ newTheme themeCookie request = VString "light"
  /\ action themeCookie request = action themeCookie request_dark.
Proof.
  intros Hm Hd.
  assert (He : effectiveTheme themeCookie request
               = parse themeCookie (header_Cookie request)).
  { unfold effectiveTheme, currentTheme.
    destruct (parse themeCookie (header_Cookie request)); try discriminate; reflexivity. }
  assert (Hn : newTheme themeCookie request = VString "light").
  { unfold newTheme. rewrite He. unfold malformed in Hm.
    destruct (parse themeCookie (header_Cookie request) === "light").
    - rewrite andb_false_r in Hm. discriminate.
    - reflexivity. }
  split; [exact He | split; [exact Hn |]].
  rewrite !action_unfold, Hn. unfold newTheme.
  now rewrite (effectiveTheme_of_cookie request_dark "dark" Hd).
Qed.

(** Once the form data has resolved, the promise resolves with the
    response of [action] on that form. *)
Lemma action_promise_on_form (r : IncomingRequest) (fd : FormData) :
  incoming_formData r = Some fd ->
  action_promise themeCookie r
  = Resolves (action themeCookie (mkRequest (incoming_Cookie r) fd)).
Proof.
  intros H. unfold action_promise. now rewrite H.
Qed.

(** C5, as amended. The action has one error path: it rejects exactly
    when [await request.formData()] does, the body being no form, and
    otherwise resolves with its response.  On a form, a cookie value
    that is present but is neither [light] nor [dark] is not set aside:
    it is the effective theme, the [systemPreference] field is not
    consulted, and the action answers as it does for a [dark] cookie,
    writing [light]; only a [null] or [undefined] cookie value falls
    through to [systemPreference] and then to [dark]. *)
Theorem action_malformed_cookie_and_rejection (request request_dark : IncomingRequest) :
  malformed (parse themeCookie (incoming_Cookie request)) = true ->
  parse themeCookie (incoming_Cookie request_dark) = VString "dark" ->
  (forall r,
      action_promise themeCookie r = Rejects TypeError_formData
      <-> incoming_formData r = None)
  /\ (forall r fd,
        incoming_formData r = Some fd ->
        action_promise themeCookie r
        = Resolves (action themeCookie (mkRequest (incoming_Cookie r) fd)))
  /\ (forall fd fd',
        incoming_formData request = Some fd ->
        incoming_formData request_dark = Some fd' ->
        effectiveTheme themeCookie (mkRequest (incoming_Cookie request) fd)
        = parse themeCookie (incoming_Cookie request)
        /\ action_promise themeCookie request
           = Resolves (data VNull [("Cache-Control", "no-cache");
                                   ("Set-Cookie",
                                    serialize themeCookie (VString "light"))])
        /\ action_promise themeCookie request = action_promise themeCookie request_dark)
  /\ (forall r fd,
        is_nullish (parse themeCookie (incoming_Cookie r)) = true ->
        incoming_formData r = Some fd ->
        effectiveTheme themeCookie (mkRequest (incoming_Cookie r) fd)
        = FormData_get fd "systemPreference" ?? VString "dark").
Proof.
  intros Hm Hd. split; [| split; [| split]].
  - intros r. unfold action_promise.
    destruct (incoming_formData r); split; intros H; try discriminate; reflexivity.
  - exact action_promise_on_form.
  - intros fd fd' Hf Hf'.
    destruct (malformed_cookie_on_form
                (mkRequest (incoming_Cookie request) fd)
                (mkRequest (incoming_Cookie request_dark) fd') Hm Hd)
      as (He & Hn & Ha).
    rewrite (action_promise_on_form request fd Hf).
    rewrite (action_promise_on_form request_dark fd' Hf').
    split; [exact He |]. split; [| now rewrite Ha].
    now rewrite action_unfold, Hn.
  - intros r fd Hn _. unfold effectiveTheme, currentTheme, systemPreference. simpl.
    destruct (parse themeCookie (incoming_Cookie r)); try discriminate; reflexivity.
Qed.

(** C6. The response of the action has no body ([data(null, ...)]) and
    exactly two headers: [Cache-Control: no-cache], and a [Set-Cookie]
    that is the serialized new theme. *)
Theorem action_response_shape (request : Request) :
  body (action themeCookie request) = VNull
  /\ Headers_get (headers (action themeCookie request)) "Cache-Control" = Some "no-cache"
  /\ Headers_get (headers (action themeCookie request)) "Set-Cookie"
     = Some (serialize themeCookie (newTheme themeCookie request))
  /\ map fst (headers (action themeCookie request)) = ["Cache-Control"; "Set-Cookie"].
Proof. repeat split. Qed.

(** C9. Whatever the cookie and the form hold, the theme serialized
    into the [Set-Cookie] header is the string [light] or the string
    [dark], never [null] or [undefined]. *)
Theorem newTheme_is_light_or_dark (request : Request) :
  (newTheme themeCookie request = VString "light"
   \/ newTheme themeCookie request = VString "dark")
  /\ is_nullish (newTheme themeCookie request) = false
  /\ (Headers_get (headers (action themeCookie request)) "Set-Cookie"
      = Some (serialize themeCookie (VString "light"))
      \/ Headers_get (headers (action themeCookie request)) "Set-Cookie"
         = Some (serialize themeCookie (VString "dark"))).
Proof.
  rewrite set_cookie_of_action.
  destruct (newTheme_cases request) as [H | H]; rewrite H; repeat split; auto.
Qed.

End ToggleThemeFacts.

(** The action at a concrete request: a [dark] cookie and a [light]
    preference. *)
Lemma action_toggles_effective_theme_witness :
  ToggleTheme.newTheme ToggleTheme.plainCookie Examples.exRequest = VString "light".
Proof.
  exact (proj1 (proj2 (action_toggles_effective_theme
                         ToggleTheme.plainCookie Examples.exRequest dark light
                         eq_refl eq_refl))).
Defined.

Lemma plainCookie_round_trip : ToggleTheme.cookie_round_trip ToggleTheme.plainCookie Some.
Proof. split; reflexivity. Defined.

Lemma toggle_twice_restores_effective_theme_witness :
  let second := ToggleTheme.next_request Some Examples.exRequest
                  (ToggleTheme.action ToggleTheme.plainCookie Examples.exRequest) in
  ToggleTheme.newTheme ToggleTheme.plainCookie second = VString "dark".
Proof.
  exact (proj1 (proj2 (toggle_twice_restores_effective_theme
                         ToggleTheme.plainCookie Some plainCookie_round_trip
                         Examples.exRequest dark light eq_refl eq_refl))).
Defined.

(** The claim C5 fails as stated.  With a [light] system preference, a
    cookie holding [blue] makes the action write [light], while an absent
    cookie makes it write [dark]: the malformed value is not treated as
    absent.  And a request whose body is no form makes the action
    reject: there is an error path. *)
Lemma malformed_cookie_not_absent_counterexample :
  let request := mkRequest (Some "blue") [("systemPreference", FString "light")] in
  let absent := mkRequest None [("systemPreference", FString "light")] in
  (ToggleTheme.malformed (parse ToggleTheme.plainCookie (header_Cookie request)) = true
   /\ is_nullish (parse ToggleTheme.plainCookie (header_Cookie absent)) = true
   /\ request_formData request = request_formData absent
   /\ ToggleTheme.action ToggleTheme.plainCookie request
      = data VNull [("Cache-Control", "no-cache"); ("Set-Cookie", "light")]
   /\ ToggleTheme.action ToggleTheme.plainCookie absent
      = data VNull [("Cache-Control", "no-cache"); ("Set-Cookie", "dark")]
   /\ ToggleTheme.action ToggleTheme.plainCookie request
      <> ToggleTheme.action ToggleTheme.plainCookie absent)
  /\ (ToggleTheme.action_promise ToggleTheme.plainCookie
        (ToggleTheme.mkIncoming (Some "blue")
           (Some [("systemPreference", FString "light")]))
      = ToggleTheme.Resolves
          (data VNull [("Cache-Control", "no-cache"); ("Set-Cookie", "light")])
      /\ ToggleTheme.action_promise ToggleTheme.plainCookie
           (ToggleTheme.mkIncoming None (Some [("systemPreference", FString "light")]))
         = ToggleTheme.Resolves
             (data VNull [("Cache-Control", "no-cache"); ("Set-Cookie", "dark")])
      /\ ToggleTheme.action_promise ToggleTheme.plainCookie
           (ToggleTheme.mkIncoming (Some "dark") None)
         = ToggleTheme.Rejects ToggleTheme.TypeError_formData).
Proof.
  cbv zeta. repeat split; discriminate.
Qed.

Lemma action_malformed_cookie_and_rejection_witness :
  ToggleTheme.action_promise ToggleTheme.plainCookie
    (ToggleTheme.mkIncoming (Some "blue") (Some [("systemPreference", FString "light")]))
  = ToggleTheme.action_promise ToggleTheme.plainCookie
      (ToggleTheme.mkIncoming (Some "dark") (Some [])).
Proof.
  exact (proj2 (proj2 (proj1 (proj2 (proj2
           (action_malformed_cookie_and_rejection
              ToggleTheme.plainCookie
              (ToggleTheme.mkIncoming (Some "blue")
                 (Some [("systemPreference", FString "light")]))
              (ToggleTheme.mkIncoming (Some "dark") (Some []))
              eq_refl eq_refl)))
           [("systemPreference", FString "light")] [] eq_refl eq_refl))).
Defined.

(* ================================================================== *)
(** ** Properties of the root loader *)
(* ================================================================== *)

Section LoaderFacts.

Import Root.

Variables User Rfd Author Label E : Type.
Variables themeCookie inlineCommentsCookie : Cookie.

Implicit Types (services : Services User Rfd Author Label E).
Implicit Types (d : LoaderData User Rfd Author Label).
Implicit Types (request : Request) (t : trace) (u : User) (lm : bool).

(** Case analysis on every collaborator outcome met in the goal. *)
Ltac outcomes :=
  repeat match goal with
         | |- context [match ?o with Return _ => _ | Throw _ => _ end] =>
             let Eo := fresh "Eo" in destruct o eqn:Eo; simpl
         | H : context [match ?o with Return _ => _ | Throw _ => _ end] |- _ =>
             let Eo := fresh "Eo" in destruct o eqn:Eo; simpl in H
         end.

Ltac unfold_loader :=
  unfold run, Root.loader, loader_try, loader_catch, try_catch, bind, invoke,
    ret, truthy_array in *; simpl in *.

(** What any returned object holds, on either path: the cookies' values,
    the authenticated user and the local-mode flag; and, when [logout]
    was called, nothing of the documents. *)
Lemma loader_return_inv services request d t :
  run (loader themeCookie inlineCommentsCookie services request) = (Return d, t) ->
  exists u lm,
    authenticate services request = Return u
    /\ isLocalMode services tt = Return lm
    /\ theme d = loader_theme themeCookie request
    /\ inlineComments d = loader_inlineComments inlineCommentsCookie request
    /\ user d = u
    /\ localMode d = lm
    /\ (calls_logout t = true ->
        rfds d = [] /\ authors d = [] /\ labels d = [] /\ newRfdNumber d = None).
Proof.
  intros H. unfold_loader.
  destruct (authenticate services request) as [u | e] eqn:Ea; simpl in H;
    [| discriminate].
  exists u.
  outcomes; try discriminate;
    injection H as <- <-; eexists; repeat split; simpl;
    try reflexivity; try eassumption; try congruence; try discriminate.
Qed.

(** The loader returns whenever [authenticate], [logout] and
    [isLocalMode] do, whatever becomes of the fetch. *)
Lemma loader_returns services request u lm :
  authenticate services request = Return u ->
  logout services request "/" = Return tt ->
  isLocalMode services tt = Return lm ->
  exists d t,
    run (loader themeCookie inlineCommentsCookie services request) = (Return d, t).
Proof.
  intros Ha Hl Hm. unfold_loader. rewrite Ha. simpl.
  outcomes; rewrite ?Hl, ?Hm; simpl; rewrite ?Hm; simpl;
    try congruence; eexists; eexists; reflexivity.
Qed.

(** C3, as amended. A throw of [authenticate], which is awaited before
    the [try] block, leaves the loader as it is, with no call of
    [logout].  Once [authenticate] has returned, a throw of the [try]
    block (the fetch and what follows it) is caught and [logout] is
    called with ["/"]: if [logout] returns, the loader returns the
    object with no documents; if [logout] throws, as a redirect does,
    that throw leaves the loader. *)
Theorem loader_failure_paths services request :
  let th := loader_theme themeCookie request in
  let ic := loader_inlineComments inlineCommentsCookie request in
  let result := run (loader themeCookie inlineCommentsCookie services request) in
  match authenticate services request with
  | Throw e => result = (Throw e, [CallAuthenticate request])
  | Return u =>
      forall e t,
        loader_try services th ic u [CallAuthenticate request] = (Throw e, t) ->
        match logout services request "/" with
        | Throw e' => result = (Throw e', (t ++ [CallLogout request "/"])%list)
        | Return _ =>
            match isLocalMode services tt with
            | Return lm =>
                result = (Return (mkLoaderData th ic u [] [] [] lm None),
                          (t ++ [CallLogout request "/"; CallIsLocalMode])%list)
            | Throw e' =>
                result = (Throw e',
                          (t ++ [CallLogout request "/"; CallIsLocalMode])%list)
            end
        end
  end.
Proof.
  intros th ic result. subst result.
  unfold run, loader, try_catch, bind, invoke. simpl.
  destruct (authenticate services request) as [u | e]; [| reflexivity].
  intros e t Ht. fold th ic. rewrite Ht.
  unfold loader_catch, bind, invoke, ret.
  destruct (logout services request "/"); [| reflexivity].
  destruct (isLocalMode services tt); now rewrite <- app_assoc.
Qed.

(** C7. When the [inlineComments] cookie is absent (it parses to [null]
    or [undefined]), every object the loader returns has
    [inlineComments = true]; and the loader does return one whenever
    [authenticate], [logout] and [isLocalMode] return. *)
Theorem loader_inlineComments_default services request :
  is_nullish (parse inlineCommentsCookie (header_Cookie request)) = true ->
  (forall d t,
      run (loader themeCookie inlineCommentsCookie services request) = (Return d, t) ->
      inlineComments d = VBool true)
  /\ (forall u lm,
        authenticate services request = Return u ->
        logout services request "/" = Return tt ->
        isLocalMode services tt = Return lm ->
        exists d t,
          run (loader themeCookie inlineCommentsCookie services request) = (Return d, t)
          /\ inlineComments d = VBool true).
Proof.
  intros Hn.
  assert (Hd : forall d t,
             run (loader themeCookie inlineCommentsCookie services request)
             = (Return d, t) ->
             inlineComments d = VBool true).
  { intros d t H.
    destruct (loader_return_inv services request d t H)
      as (u & lm & _ & _ & _ & Hi & _).
    rewrite Hi. unfold loader_inlineComments, coalesce. now rewrite Hn. }
  split; [exact Hd |].
  intros u lm Ha Hl Hm.
  destruct (loader_returns services request u lm Ha Hl Hm) as (d & t & H).
  exists d, t. split; [exact H | exact (Hd d t H)].
Qed.

(** C10. For one request, served once with the fetch succeeding and
    once with it failing (the collaborators otherwise answering alike),
    the object returned after [logout] has the theme, the
    inline-comments flag, the user and the local-mode flag of the object
    returned on success, and has no documents, authors, labels or new
    number. *)
Theorem loader_fallback_frame services services' request d t d' t' :
  authenticate services' request = authenticate services request ->
  isLocalMode services' tt = isLocalMode services tt ->
  run (loader themeCookie inlineCommentsCookie services request) = (Return d, t) ->
  calls_logout t = false ->
  run (loader themeCookie inlineCommentsCookie services' request) = (Return d', t') ->
  calls_logout t' = true ->
  (theme d' = theme d /\ inlineComments d' = inlineComments d
   /\ user d' = user d /\ localMode d' = localMode d)
  /\ (rfds d' = [] /\ authors d' = [] /\ labels d' = [] /\ newRfdNumber d' = None).
Proof.
  intros Ha Hm H _ H' Hl'.
  destruct (loader_return_inv services request d t H)
    as (u & lm & Eu & Elm & Ht & Hi & Hu & Hlm & _).
  destruct (loader_return_inv services' request d' t' H')
    as (u' & lm' & Eu' & Elm' & Ht' & Hi' & Hu' & Hlm' & Hempty).
  split; [| exact (Hempty Hl')].
  rewrite Ha, Eu in Eu'. rewrite Hm, Elm in Elm'.
  injection Eu' as <-. injection Elm' as <-.
  repeat split; congruence.
Qed.

End LoaderFacts.

(** The fetch fails and [logout] returns: the empty-document response. *)
Lemma loader_failure_paths_witness :
  Root.run (Root.loader ToggleTheme.plainCookie Examples.flagCookie
              Examples.exServices_fetch_fails Examples.exRequest)
  = (Root.Return (Root.mkLoaderData (VString "dark") (VBool true) "alice"
                    [] [] [] false None),
     [Root.CallAuthenticate Examples.exRequest; Root.CallFetchRfds;
      Root.CallLogout Examples.exRequest "/"; Root.CallIsLocalMode]).
Proof.
  exact (loader_failure_paths _ _ _ _ _ ToggleTheme.plainCookie Examples.flagCookie
           Examples.exServices_fetch_fails Examples.exRequest
           "fetch failed" [Root.CallAuthenticate Examples.exRequest; Root.CallFetchRfds]
           eq_refl).
Defined.

(** The claim C3 fails as stated.  When the fetch throws and [logout]
    throws its redirect, and when [authenticate] itself throws, the
    loader throws: no object is returned, and in the second case
    [logout] is not even called. *)
Lemma loader_fetch_failure_counterexample :
  Root.fetchRfds Examples.exServices_logout_redirects "alice" = Root.Throw "unauthenticated"
  /\ Root.run (Root.loader ToggleTheme.plainCookie Examples.flagCookie
                 Examples.exServices_logout_redirects Examples.exRequest)
     = (Root.Throw "redirect /",
        [Root.CallAuthenticate Examples.exRequest; Root.CallFetchRfds;
         Root.CallLogout Examples.exRequest "/"])
  /\ Root.responds_empty
       (Root.run (Root.loader ToggleTheme.plainCookie Examples.flagCookie
                    Examples.exServices_logout_redirects Examples.exRequest)) = false
  /\ Root.authenticate Examples.exServices_auth_fails Examples.exRequest
     = Root.Throw "authentication failed"
  /\ Root.run (Root.loader ToggleTheme.plainCookie Examples.flagCookie
                 Examples.exServices_auth_fails Examples.exRequest)
     = (Root.Throw "authentication failed", [Root.CallAuthenticate Examples.exRequest])
  /\ Root.responds_empty
       (Root.run (Root.loader ToggleTheme.plainCookie Examples.flagCookie
                    Examples.exServices_auth_fails Examples.exRequest)) = false.
Proof. repeat split. Qed.

Lemma loader_inlineComments_default_witness :
  exists d t,
    Root.run (Root.loader ToggleTheme.plainCookie Examples.flagCookie
                Examples.exServices Examples.exRequest) = (Root.Return d, t)
    /\ Root.inlineComments d = VBool true.
Proof.
  exact (proj2 (loader_inlineComments_default _ _ _ _ _
                  ToggleTheme.plainCookie Examples.flagCookie
                  Examples.exServices Examples.exRequest eq_refl)
               "alice" false eq_refl eq_refl eq_refl).
Defined.

Lemma loader_fallback_frame_witness :
  (Root.theme Examples.exData_fallback = Root.theme Examples.exData_success
   /\ Root.inlineComments Examples.exData_fallback
      = Root.inlineComments Examples.exData_success
   /\ Root.user Examples.exData_fallback = Root.user Examples.exData_success
   /\ Root.localMode Examples.exData_fallback = Root.localMode Examples.exData_success)
  /\ (Root.rfds Examples.exData_fallback = []
      /\ Root.authors Examples.exData_fallback = []
      /\ Root.labels Examples.exData_fallback = []
      /\ Root.newRfdNumber Examples.exData_fallback = None).
Proof.
  exact (loader_fallback_frame _ _ _ _ _
           ToggleTheme.plainCookie Examples.flagCookie
           Examples.exServices Examples.exServices_fetch_fails Examples.exRequest
           Examples.exData_success
           [Root.CallAuthenticate Examples.exRequest; Root.CallFetchRfds;
            Root.CallGetAuthors; Root.CallGetLabels; Root.CallIsLocalMode;
            Root.CallProvideNewRfdNumber]
           Examples.exData_fallback
           [Root.CallAuthenticate Examples.exRequest; Root.CallFetchRfds;
            Root.CallLogout Examples.exRequest "/"; Root.CallIsLocalMode]
           eq_refl eq_refl eq_refl eq_refl eq_refl eq_refl).
Defined.

(* ================================================================== *)
(** ** Properties of the shell and of its script *)
(* ================================================================== *)

Section ShellFacts.

Import Root.

(** C4. For each of the three themes, the shell's root element has the
    class of that theme ([light-mode], [dark-mode], or none) and its
    [color-scheme] meta tag has the matching content ([light], [dark],
    or [dark light]); an omitted [theme] prop renders as [null] does. *)
Theorem Layout_class_and_color_scheme
    (production : bool) (children : list node) (t : Theme) :
  root_className (Layout production children (theme_value t)) = Some (class_of_theme t)
  /\ meta_content "color-scheme" (Layout production children (theme_value t))
     = Some (color_scheme_of_theme t)
  /\ Layout production children VUndefined = Layout production children VNull.
Proof.
  destruct t, production; repeat split.
Qed.

(** The script the shell inlines is [themeScript] of the theme. *)
Lemma Layout_inline_script (production : bool) (children : list node) (t : Theme) :
  inline_script (Layout production children (theme_value t))
  = Some (themeScript (theme_value t)).
Proof. destruct t, production; reflexivity. Qed.

(** C8. The script emitted for a theme runs, and it asks the
    [prefers-color-scheme] media query exactly when the theme is [null];
    for [light] and [dark] the class it sets is that of the saved theme
    and the run is the same whatever the media query would answer. *)
Theorem themeScript_reads_media_only_when_null (t : Theme) (w : Browser) :
  exists ops,
    themeScript_run (theme_value t) w = Some ops
    /\ consults_media ops = eq_null (theme_value t)
    /\ root_class_set ops = Some (resolved_class t w)
    /\ match t with
       | null => In (MatchMedia "(prefers-color-scheme: light)") ops
       | _ => forall answer,
           themeScript_run (theme_value t) (mkBrowser answer (has_color_scheme_meta w))
           = Some ops
       end.
Proof.
  destruct w as [mm meta].
  destruct t; cbn [theme_value]; eexists; (split; [reflexivity |]).
  - destruct meta; repeat split.
  - destruct meta; repeat split.
  - destruct meta, (mm "(prefers-color-scheme: light)") eqn:Em;
      cbn; rewrite ?Em; cbn; repeat split; auto.
Qed.

(** A loader whose theme cookie reads as [t] hands [App] an object that
    renders with the class and the [color-scheme] of [t]. *)
Lemma App_renders_cookie_theme
    (User Rfd Author Label E : Type) (themeCookie inlineCommentsCookie : Cookie)
    (services : Services User Rfd Author Label E) (request : Request)
    (production : bool) (t : Theme) (d : LoaderData User Rfd Author Label) (tr : trace) :
  ToggleTheme.reads_as (parse themeCookie (header_Cookie request)) t = true ->
  run (loader themeCookie inlineCommentsCookie services request) = (Return d, tr) ->
  root_className (App production d) = Some (class_of_theme t)
  /\ meta_content "color-scheme" (App production d) = Some (color_scheme_of_theme t).
Proof.
  intros Hr H.
  destruct (loader_return_inv _ _ _ _ _ _ _ services request d tr H)
    as (u & lm & _ & _ & Ht & _).
  unfold App. rewrite Ht. unfold loader_theme.
  rewrite (reads_as_value _ _ Hr).
  destruct t, production; split; reflexivity.
Qed.

End ShellFacts.

(* ================================================================== *)
(** ** More on the toggle action: every input, and sessions *)
(* ================================================================== *)

Section ToggleSessions.

Import ToggleTheme.

Variable themeCookie : Cookie.

(** X1. For every cookie value and every form, malformed ones included,
    the action writes [dark] exactly when the cookie is the string
    [light], or the cookie is absent and the [systemPreference] field is
    the string [light]; in every other case it writes [light]. *)
Theorem newTheme_dark_iff (request : Request) :
  let cookie := parse themeCookie (header_Cookie request) in
  let field := FormData_get (request_formData request) "systemPreference" in
  (newTheme themeCookie request = VString "dark"
   <-> (cookie === "light") = true
       \/ (is_nullish cookie = true /\ (field === "light") = true))
  /\ (newTheme themeCookie request = VString "light"
      <-> ~ ((cookie === "light") = true
             \/ (is_nullish cookie = true /\ (field === "light") = true))).
Proof.
  cbv zeta. unfold newTheme, effectiveTheme, currentTheme, systemPreference.
  destruct (parse themeCookie (header_Cookie request)) as [| | b | s | o];
    destruct (FormData_get (request_formData request) "systemPreference")
      as [| | b' | s' | o'];
    cbn;
    try destruct (String.eqb s "light");
    try destruct (String.eqb s' "light");
    (split; split; intros H; try discriminate; try reflexivity; try tauto;
     try (intros [K | [K K']]; discriminate);
     try (destruct H as [K | [K K']]; discriminate);
     try (exfalso; apply H; auto)).
Qed.

(** X2. Once the cookie holds a value, the form is not consulted: two
    requests whose cookies parse to the same present value get the same
    response, whatever their forms hold. *)
Theorem present_cookie_ignores_form (request request' : Request) :
  is_nullish (parse themeCookie (header_Cookie request)) = false ->
  parse themeCookie (header_Cookie request')
  = parse themeCookie (header_Cookie request) ->
  action themeCookie request' = action themeCookie request.
Proof.
  intros Hp He. rewrite !action_unfold. do 3 f_equal.
  unfold newTheme, effectiveTheme, currentTheme. rewrite He.
  destruct (parse themeCookie (header_Cookie request)); try discriminate; reflexivity.
Qed.

Section Stored.

Variable store : string -> option string.
Hypothesis round_trip : cookie_round_trip themeCookie store.

(** What a submission stores parses to the theme the action computed. *)
Lemma toggle_step_stores (cookie : option string) (fd : FormData) :
  parse themeCookie (toggle_step themeCookie store cookie fd)
  = newTheme themeCookie (mkRequest cookie fd).
Proof.
  unfold toggle_step. cbv zeta.
  apply (next_request_cookie themeCookie store round_trip).
Qed.

Lemma toggle_step_named (cookie : option string) (fd : FormData) :
  parse themeCookie (toggle_step themeCookie store cookie fd) = VString "light"
  \/ parse themeCookie (toggle_step themeCookie store cookie fd) = VString "dark".
Proof.
  rewrite toggle_step_stores. apply newTheme_cases.
Qed.

(** A submission over a named cookie flips it, whatever the form. *)
Lemma toggle_step_flips (cookie : option string) (fd : FormData) :
  (parse themeCookie cookie = VString "light" ->
   parse themeCookie (toggle_step themeCookie store cookie fd) = VString "dark")
  /\ (parse themeCookie cookie = VString "dark" ->
      parse themeCookie (toggle_step themeCookie store cookie fd) = VString "light").
Proof.
  split; intros H; rewrite toggle_step_stores; unfold newTheme;
    rewrite (effectiveTheme_of_cookie themeCookie (mkRequest cookie fd) _ H);
    reflexivity.
Qed.

Lemma toggle_session_snoc (cookie : option string) (forms : list FormData) (fd : FormData) :
  toggle_session themeCookie store cookie (forms ++ [fd])
  = toggle_step themeCookie store (toggle_session themeCookie store cookie forms) fd.
Proof.
  unfold toggle_session. now rewrite fold_left_app.
Qed.

(** After at least one submission the stored cookie is a named theme. *)
Lemma toggle_session_named (cookie : option string) (forms : list FormData) :
  forms <> [] ->
  parse themeCookie (toggle_session themeCookie store cookie forms) = VString "light"
  \/ parse themeCookie (toggle_session themeCookie store cookie forms) = VString "dark".
Proof.
  intros Hne. destruct (exists_last Hne) as (l & fd & ->).
  rewrite toggle_session_snoc. apply toggle_step_named.
Qed.

(** X3. Whatever cookie a session starts from (absent or malformed
    included) and whatever forms are submitted, after the first
    submission the stored cookie is [light] or [dark]; from then on
    every further submission changes it, and every two further
    submissions restore it, whatever preference they report. *)
Theorem toggle_session_alternates
    (cookie : option string) (forms : list FormData) (fd fd' : FormData) :
  forms <> [] ->
  let now := parse themeCookie (toggle_session themeCookie store cookie forms) in
  (now = VString "light" \/ now = VString "dark")
  /\ parse themeCookie (toggle_session themeCookie store cookie (forms ++ [fd])) <> now
  /\ parse themeCookie (toggle_session themeCookie store cookie (forms ++ [fd; fd'])) = now.
Proof.
  intros Hne now.
  pose proof (toggle_session_named cookie forms Hne) as Hn. fold now in Hn.
  split; [exact Hn |].
  replace (forms ++ [fd; fd'])%list with ((forms ++ [fd]) ++ [fd'])%list
    by now rewrite <- app_assoc.
  rewrite !toggle_session_snoc.
  set (c0 := toggle_session themeCookie store cookie forms) in *.
  destruct (toggle_step_flips c0 fd) as [Fl Fd].
  destruct (toggle_step_flips (toggle_step themeCookie store c0 fd) fd') as [Fl' Fd'].
  destruct Hn as [H | H]; subst now; rewrite H.
  - specialize (Fl H). rewrite Fl. split; [discriminate | now apply Fd'].
  - specialize (Fd H). rewrite Fd. split; [discriminate | now apply Fl'].
Qed.

End Stored.

End ToggleSessions.

Lemma present_cookie_ignores_form_witness :
  ToggleTheme.action ToggleTheme.plainCookie
    (mkRequest (Some "dark") [("systemPreference", FString "dark")])
  = ToggleTheme.action ToggleTheme.plainCookie Examples.exRequest.
Proof.
  exact (present_cookie_ignores_form ToggleTheme.plainCookie Examples.exRequest
           (mkRequest (Some "dark") [("systemPreference", FString "dark")])
           eq_refl eq_refl).
Defined.

Lemma session_not_empty :
  [[("systemPreference", FString "light")]] <> ([] : list FormData).
Proof. discriminate. Defined.

(** A session that starts from a malformed cookie. *)
Lemma toggle_session_alternates_witness :
  let forms := [[("systemPreference", FString "light")]] in
  let now := parse ToggleTheme.plainCookie
               (ToggleTheme.toggle_session ToggleTheme.plainCookie Some
                  (Some "blue") forms) in
  (now = VString "light" \/ now = VString "dark")
  /\ parse ToggleTheme.plainCookie
       (ToggleTheme.toggle_session ToggleTheme.plainCookie Some (Some "blue")
          (forms ++ [[]])) <> now
  /\ parse ToggleTheme.plainCookie
       (ToggleTheme.toggle_session ToggleTheme.plainCookie Some (Some "blue")
          (forms ++ [[]; [("systemPreference", FFile "a.png")]])) = now.
Proof.
  exact (toggle_session_alternates ToggleTheme.plainCookie Some plainCookie_round_trip
           (Some "blue") [[("systemPreference", FString "light")]]
           [] [("systemPreference", FFile "a.png")] session_not_empty).
Defined.

(* ================================================================== *)
(** ** More on the root loader: calls made and errors let through *)
(* ================================================================== *)

Section LoaderCalls.

Import Root.

Variables User Rfd Author Label E : Type.
Variables themeCookie inlineCommentsCookie : Cookie.

Implicit Types (services : Services User Rfd Author Label E).
Implicit Types (d : LoaderData User Rfd Author Label).
Implicit Types (request : Request) (t : trace) (u : User) (e : E).

Ltac split_outcomes :=
  repeat match goal with
         | |- context [match ?o with Return _ => _ | Throw _ => _ end] =>
             let Eo := fresh "Eo" in destruct o eqn:Eo; simpl
         | H : context [match ?o with Return _ => _ | Throw _ => _ end] |- _ =>
             let Eo := fresh "Eo" in destruct o eqn:Eo; simpl in H
         end.

Ltac open_loader :=
  unfold run, loader, loader_try, loader_catch, try_catch, bind, invoke,
    ret, truthy_array in *; simpl in *.

(** X4. [logout] is called exactly when [authenticate] returned and
    the [try] block threw (at the fetch or at any call after it), and
    then once, with this request and ["/"]; in no other run is it
    called. *)
Theorem loader_logout_discipline services request :
  let th := loader_theme themeCookie request in
  let ic := loader_inlineComments inlineCommentsCookie request in
  let t := snd (run (loader themeCookie inlineCommentsCookie services request)) in
  calls_logout t
  = match authenticate services request with
    | Throw _ => false
    | Return u =>
        match fst (loader_try services th ic u [CallAuthenticate request]) with
        | Throw _ => true
        | Return _ => false
        end
    end
  /\ filter is_logout t = if calls_logout t then [CallLogout request "/"] else [].
Proof.
  cbv zeta. open_loader.
  destruct (authenticate services request) as [u | e]; simpl;
    [| split; reflexivity].
  split_outcomes; split; reflexivity.
Qed.

(** X5. A throw that leaves the loader is a throw of [authenticate], of
    [logout], or of [isLocalMode] after [logout]: what [fetchRfds],
    [getAuthors], [getLabels] and [provideNewRfdNumber] throw is caught
    and never reaches the caller as such. *)
Theorem loader_throw_origin services request e t :
  run (loader themeCookie inlineCommentsCookie services request) = (Throw e, t) ->
  (authenticate services request = Throw e /\ calls_logout t = false)
  \/ (exists u,
        authenticate services request = Return u
        /\ calls_logout t = true
        /\ (logout services request "/" = Throw e
            \/ (logout services request "/" = Return tt
                /\ isLocalMode services tt = Throw e))).
Proof.
  intros H. open_loader.
  destruct (authenticate services request) as [u | e0] eqn:Ea; simpl in H.
  - right. exists u. split; [reflexivity |].
    split_outcomes; try discriminate;
      injection H as <- <-; (split; [reflexivity |]);
      repeat match goal with
             | x : unit |- _ => destruct x
             end;
      first [ left; congruence | right; split; congruence ].
  - left. injection H as <- <-. split; reflexivity.
Qed.

(** X6. An object returned without a call of [logout] is consistent:
    its documents are what [fetchRfds] gave for its user (the empty list
    for a falsy result), its authors, labels and new number are what
    [getAuthors], [getLabels] and [provideNewRfdNumber] return for
    exactly those documents (the facets are asked for even when the list
    is empty), and the six calls were made in source order. *)
Theorem loader_success_consistent services request d t :
  run (loader themeCookie inlineCommentsCookie services request) = (Return d, t) ->
  calls_logout t = false ->
  (exists fetched,
      fetchRfds services (user d) = Return fetched /\ rfds d = or_empty Rfd fetched)
  /\ getAuthors services (rfds d) = Return (authors d)
  /\ getLabels services (rfds d) = Return (labels d)
  /\ provideNewRfdNumber services (rfds d) = Return (newRfdNumber d)
  /\ isLocalMode services tt = Return (localMode d)
  /\ t = [CallAuthenticate request; CallFetchRfds; CallGetAuthors; CallGetLabels;
          CallIsLocalMode; CallProvideNewRfdNumber].
Proof.
  intros H Hl. open_loader.
  destruct (authenticate services request) as [u | e0] eqn:Ea; simpl in H;
    [| discriminate].
  split_outcomes; try discriminate; injection H as <- <-;
    try discriminate Hl; simpl.
  repeat split; try assumption. eexists; split; [eassumption | reflexivity].
Qed.

End LoaderCalls.

Lemma loader_throw_origin_witness :
  (Root.authenticate Examples.exServices_logout_redirects Examples.exRequest
   = Root.Throw "redirect /"
   /\ Root.calls_logout
        [Root.CallAuthenticate Examples.exRequest; Root.CallFetchRfds;
         Root.CallLogout Examples.exRequest "/"] = false)
  \/ (exists u,
        Root.authenticate Examples.exServices_logout_redirects Examples.exRequest
        = Root.Return u
        /\ Root.calls_logout
             [Root.CallAuthenticate Examples.exRequest; Root.CallFetchRfds;
              Root.CallLogout Examples.exRequest "/"] = true
        /\ (Root.logout Examples.exServices_logout_redirects Examples.exRequest "/"
            = Root.Throw "redirect /"
            \/ (Root.logout Examples.exServices_logout_redirects Examples.exRequest "/"
                = Root.Return tt
                /\ Root.isLocalMode Examples.exServices_logout_redirects tt
                   = Root.Throw "redirect /"))).
Proof.
  exact (loader_throw_origin _ _ _ _ _ ToggleTheme.plainCookie Examples.flagCookie
           Examples.exServices_logout_redirects Examples.exRequest "redirect /"
           [Root.CallAuthenticate Examples.exRequest; Root.CallFetchRfds;
            Root.CallLogout Examples.exRequest "/"]
           eq_refl).
Defined.

Lemma loader_success_consistent_witness :
  (exists fetched,
      Root.fetchRfds Examples.exServices (Root.user Examples.exData_success)
      = Root.Return fetched
      /\ Root.rfds Examples.exData_success = Root.or_empty Examples.Rfd fetched)
  /\ Root.getAuthors Examples.exServices (Root.rfds Examples.exData_success)
     = Root.Return (Root.authors Examples.exData_success)
  /\ Root.getLabels Examples.exServices (Root.rfds Examples.exData_success)
     = Root.Return (Root.labels Examples.exData_success)
  /\ Root.provideNewRfdNumber Examples.exServices (Root.rfds Examples.exData_success)
     = Root.Return (Root.newRfdNumber Examples.exData_success)
  /\ Root.isLocalMode Examples.exServices tt
     = Root.Return (Root.localMode Examples.exData_success)
  /\ [Root.CallAuthenticate Examples.exRequest; Root.CallFetchRfds;
      Root.CallGetAuthors; Root.CallGetLabels; Root.CallIsLocalMode;
      Root.CallProvideNewRfdNumber]
     = [Root.CallAuthenticate Examples.exRequest; Root.CallFetchRfds;
        Root.CallGetAuthors; Root.CallGetLabels; Root.CallIsLocalMode;
        Root.CallProvideNewRfdNumber].
Proof.
  exact (loader_success_consistent _ _ _ _ _ ToggleTheme.plainCookie Examples.flagCookie
           Examples.exServices Examples.exRequest Examples.exData_success
           [Root.CallAuthenticate Examples.exRequest; Root.CallFetchRfds;
            Root.CallGetAuthors; Root.CallGetLabels; Root.CallIsLocalMode;
            Root.CallProvideNewRfdNumber]
           eq_refl eq_refl).
Defined.

(* ================================================================== *)
(** ** More on the shell: the script in its document, any theme value,
       the error boundary *)
(* ================================================================== *)

Section ShellMore.

Import Root.

(** *** The interpolated literal *)

Lemma substring_prefix (s rest : string) :
  substring 0 (String.length s) (s ++ rest) = s.
Proof.
  induction s as [| c s IH]; simpl.
  - destruct rest; reflexivity.
  - now rewrite IH.
Qed.

Lemma substring_last (s : string) (c : ascii) :
  substring (String.length s) 1 (s ++ String c EmptyString) = String c EmptyString.
Proof.
  induction s as [| c' s IH]; simpl; [reflexivity | exact IH].
Qed.

Lemma length_snoc (s : string) (c : ascii) :
  String.length (s ++ String c EmptyString) = S (String.length s).
Proof.
  induction s as [| c' s IH]; simpl; [reflexivity | now rewrite IH].
Qed.

(** A single-quoted text denotes that text when it is free of quotes,
    backslashes and line ends, and is no plain literal otherwise. *)
Lemma eval_savedTheme_quoted (s : string) :
  eval_savedTheme ("'" ++ s ++ "'")
  = if forallb plain_char (list_ascii_of_string s) then Some (VString s) else None.
Proof.
  unfold eval_savedTheme.
  change ("'" ++ s ++ "'") with (String "'"%char (s ++ "'")).
  replace (String.eqb (String "'"%char (s ++ "'")) "null") with false by reflexivity.
  rewrite length_snoc. simpl Nat.sub. rewrite Nat.sub_0_r.
  rewrite substring_prefix, substring_last. reflexivity.
Qed.

Lemma savedTheme_literal_quotes (v : value) :
  eq_null v = false -> savedTheme_literal v = "'" ++ to_string v ++ "'".
Proof.
  intros H. unfold savedTheme_literal. now rewrite H.
Qed.


(** X8. In the document [Layout] renders for a saved theme, the meta
    tag precedes the inline script, so the script finds it; for [light]
    and [dark] the script sets the class and the [color-scheme] the
    markup already has, whatever the media query answers; for [null] it
    replaces the empty class and [dark light] by the class and scheme of
    the system preference. *)
Theorem inline_script_agrees_with_markup
    (production : bool) (children : list node) (answer : string -> bool) (t : Theme) :
  let shell := Layout production children (theme_value t) in
  let system_light := answer "(prefers-color-scheme: light)" in
  inline_script shell = Some (themeScript (theme_value t))
  /\ has_color_scheme_meta (document_browser answer shell) = true
  /\ exists ops,
      run_inline_script answer (theme_value t) shell = Some ops
      /\ match t with
         | null =>
             root_class_set ops
             = Some (if system_light then "light-mode" else "dark-mode")
             /\ meta_content_set ops = Some (if system_light then "light" else "dark")
             /\ root_class_set ops <> root_className shell
             /\ meta_content_set ops <> meta_content "color-scheme" shell
         | _ =>
             root_class_set ops = root_className shell
             /\ meta_content_set ops = meta_content "color-scheme" shell
         end.
Proof.
  cbv zeta.
  destruct t, production; (split; [reflexivity |]); (split; [reflexivity |]);
    try (eexists; split; [reflexivity |]; split; reflexivity).
  all: unfold run_inline_script, themeScript_run; cbn;
    destruct (answer "(prefers-color-scheme: light)"); eexists;
    (split; [reflexivity |]); repeat split; discriminate.
Qed.

Lemma forallb_string_app (f : ascii -> bool) (a b : string) :
  forallb f (list_ascii_of_string (a ++ b))
  = forallb f (list_ascii_of_string a) && forallb f (list_ascii_of_string b).
Proof.
  induction a as [| c a IH]; simpl; [reflexivity |].
  rewrite IH. now rewrite andb_assoc.
Qed.

(** The script emitted for a string reaches the engine whole when the
    string has no [<] and no NUL: the fixed text of the template has
    neither. *)
Lemma themeScript_delivered (s : string) :
  forallb script_data_char (list_ascii_of_string s) = true ->
  forallb script_data_char (list_ascii_of_string (themeScript (VString s))) = true.
Proof.
  intros Hs. unfold themeScript, savedTheme_literal. cbn [eq_null to_string].
  rewrite !forallb_string_app, Hs. reflexivity.
Qed.

(** X9. A theme that is a string other than [light] and [dark], free of
    quotes, backslashes and line ends, and of [<] and NUL so that the
    document delivers the inline script whole, is rendered two ways at
    once: the markup of [Layout] follows the system (empty class,
    [dark light]), while its inline script, without asking the media
    query, sets [dark-mode] and [dark]. *)
Theorem malformed_theme_markup_and_script_differ
    (production : bool) (children : list node) (answer : string -> bool) (s : string) :
  String.eqb s "light" = false ->
  String.eqb s "dark" = false ->
  forallb plain_char (list_ascii_of_string s) = true ->
  forallb script_data_char (list_ascii_of_string s) = true ->
  let shell := Layout production children (VString s) in
  root_className shell = Some ""
  /\ meta_content "color-scheme" shell = Some "dark light"
  /\ delivered_script shell = Some (themeScript (VString s))
  /\ exists ops,
      run_delivered_script answer (VString s) shell = Some ops
      /\ consults_media ops = false
      /\ root_class_set ops = Some "dark-mode"
      /\ meta_content_set ops = Some "dark".
Proof.
  intros Hl Hd Hp Hs. cbv zeta.
  assert (Hc : root_className (Layout production children (VString s)) = Some "").
  { unfold root_className, prop, Layout. cbn. now rewrite Hl, Hd. }
  assert (Hm : meta_content "color-scheme" (Layout production children (VString s))
               = Some "dark light").
  { unfold meta_content, Layout. cbn. rewrite Hl, Hd. now destruct production. }
  assert (Hi : inline_script (Layout production children (VString s))
               = Some (themeScript (VString s))).
  { unfold inline_script, Layout. cbn. now destruct production. }
  assert (Hdel : delivered_script (Layout production children (VString s))
                 = Some (themeScript (VString s))).
  { unfold delivered_script. rewrite Hi. now rewrite (themeScript_delivered s Hs). }
  assert (Hb : has_color_scheme_meta
                 (document_browser answer (Layout production children (VString s)))
               = true).
  { unfold document_browser, Layout. cbn. now destruct production. }
  split; [exact Hc | split; [exact Hm | split; [exact Hdel |]]].
  unfold run_delivered_script. rewrite Hdel, String.eqb_refl.
  unfold themeScript_run.
  rewrite (savedTheme_literal_quotes (VString s) eq_refl). cbn [to_string].
  rewrite eval_savedTheme_quoted, Hp.
  eexists. split; [reflexivity |].
  unfold themeScript_body. cbn [eq_null eq_string]. rewrite Hl, Hb.
  repeat split.
Qed.

(** X10. The error boundary shows [404 Not Found] exactly for a route
    error response of status 404, and [Something went wrong] for every
    other error.  It gives [Layout] no theme: whatever the cookie holds,
    its shell has the empty class and [dark light], and its inline
    script is the one for [null], which asks the media query. *)
Theorem ErrorBoundary_message_and_shell
    (production : bool) (error : route_error) (w : Browser) :
  let shell := ErrorBoundary production error in
  (rendered_message shell = Some "404 Not Found"
   <-> exists statusText data, error = ErrorResponse 404 statusText data)
  /\ (rendered_message shell = Some "404 Not Found"
      \/ rendered_message shell = Some "Something went wrong")
  /\ root_className shell = Some ""
  /\ meta_content "color-scheme" shell = Some "dark light"
  /\ inline_script shell = Some (themeScript VNull)
  /\ exists ops, themeScript_run VNull w = Some ops /\ consults_media ops = true.
Proof.
  cbv zeta.
  assert (Hmsg : rendered_message (ErrorBoundary production error)
                 = Some (if isRouteErrorResponse error && status_is error 404
                         then "404 Not Found" else "Something went wrong")).
  { unfold ErrorBoundary.
    destruct (isRouteErrorResponse error), (status_is error 404), production;
      reflexivity. }
  rewrite Hmsg.
  split; [| split; [| split; [| split; [| split]]]].
  - destruct error as [status statusText dat | v]; cbn.
    + destruct (Z.eqb_spec status 404) as [-> | Hne].
      * split; [intros _; now exists statusText, dat | reflexivity].
      * split; [discriminate |].
        intros (st & dt & H). injection H as H _ _. contradiction.
    + split; [discriminate | intros (st & dt & H); discriminate].
  - destruct (isRouteErrorResponse error && status_is error 404); auto.
  - reflexivity.
  - unfold ErrorBoundary. now destruct production.
  - unfold ErrorBoundary. now destruct production.
  - eexists. split; [reflexivity |]. now destruct (has_color_scheme_meta w).
Qed.


End ShellMore.


Lemma malformed_theme_markup_and_script_differ_witness :
  let shell := Root.Layout true [] (VString "blue") in
  Root.root_className shell = Some ""
  /\ Root.meta_content "color-scheme" shell = Some "dark light"
  /\ Root.delivered_script shell = Some (Root.themeScript (VString "blue"))
  /\ exists ops,
      Root.run_delivered_script (fun _ => true) (VString "blue") shell = Some ops
      /\ Root.consults_media ops = false
      /\ Root.root_class_set ops = Some "dark-mode"
      /\ Root.meta_content_set ops = Some "dark".
Proof.
  exact (malformed_theme_markup_and_script_differ true [] (fun _ => true) "blue"
           eq_refl eq_refl eq_refl eq_refl).
Defined.


